(** * MediCredit AI frontend: tab pages, navigation layout and route table

    A shallow embedding of the React components of
    [medicredit-ai/frontend/src]:

    - [pages/PatientPortal.tsx] and [pages/ProviderDashboard.tsx]: a page
      keeps one piece of state, [activeTab], and renders the component of
      the tab whose [id] equals it;
    - [components/Layout.tsx]: the navigation bar highlights a link when
      [location.pathname] starts with the link's section;
    - [App.tsx]: the route table handed to react-router.

    JavaScript strings are modelled as [string]; every literal the code
    compares against is ASCII, so comparing bytes and comparing UTF-16 code
    units agree on them.  JSX is modelled by the values that decide what is
    drawn: the selected component, the [className] of a link, the element
    of the matched route. *)

From Stdlib Require Import String Ascii List Bool Arith Lia.
Import ListNotations.
Open Scope string_scope.

(** ** JavaScript primitives used by the components *)

(** The imported React components.  Each is a function component, hence a
    truthy JavaScript value. *)
Inductive Component : Set :=
  | CostEstimator
  | BillAnalysis
  | AssistanceFinder
  | RiskDashboard
  | DenialRiskScorer
  | ClaimQA
  | RevenueAnalytics
  | CodingRecommendations.

Definition truthy (c : Component) : bool := true.

(** An entry of a page's [tabs] array: [{ id, label, component }]. *)
Record Tab : Set := mkTab {
  id : string;
  label : string;
  component : Component
}.

(** The [id]s of an array of tabs: the page's enumerated tab set. *)
Definition ids (arr : list Tab) : list string := map id arr.

(** [arr.find(pred)]: the first element satisfying [pred], [None] standing
    for [undefined]. *)
Fixpoint find {A : Type} (pred : A -> bool) (arr : list A) : option A :=
  match arr with
  | [] => None
  | t :: rest => if pred t then Some t else find pred rest
  end.

(** [x?.component]: [undefined] when [x] is [undefined]. *)
Definition opt_component (x : option Tab) : option Component :=
  match x with
  | Some t => Some (component t)
  | None => None
  end.

(** [x || d]: [d] when [x] is [undefined] or falsy, else [x]. *)
Definition js_or (x : option Component) (d : Component) : Component :=
  match x with
  | Some c => if truthy c then c else d
  | None => d
  end.

(** [s.startsWith(searchString)] with the default position 0, after
    ECMAScript's String.prototype.startsWith: false when the search string
    is longer than [s], otherwise the comparison of the first
    [length searchString] code units. *)
Definition startsWith (s searchString : string) : bool :=
  if (String.length s <? String.length searchString)%nat then false
  else substring 0 (String.length searchString) s =? searchString.

(** ** pages/PatientPortal.tsx *)

Module PatientPortal.

(** [useState('estimate')] *)
Definition initialTab : string := "estimate".

Definition tabs : list Tab :=
  [ mkTab "estimate" "Cost Estimator" CostEstimator;
    mkTab "bill" "Bill Analysis" BillAnalysis;
    mkTab "assistance" "Find Assistance" AssistanceFinder;
    mkTab "risk" "Risk Dashboard" RiskDashboard ].

(** [tabs.find(t => t.id === activeTab)?.component || CostEstimator] *)
Definition ActiveComponent (activeTab : string) : Component :=
  js_or (opt_component (find (fun t => id t =? activeTab) tabs))
        CostEstimator.

(** [onClick={() => setActiveTab(tab.id)}]: the handler of the button
    drawn for [tab], as a transformer of the [activeTab] state. *)
Definition onClick (tab : Tab) (activeTab : string) : string := id tab.

(** [className] of the button drawn for [tab]. *)
Definition buttonClassName (tab : Tab) (activeTab : string) : string :=
  "py-4 px-1 border-b-2 font-medium text-sm " ++
  (if activeTab =? id tab
   then "border-primary-500 text-primary-600"
   else "border-transparent text-gray-500 hover:text-gray-700 hover:border-gray-300").

(** [tabs.map((tab) => <button onClick=... />)]: one handler per tab, in
    the order of [tabs]. *)
Definition buttons : list (string -> string) := map onClick tabs.

(** A click on the [i]-th button of the tab bar.  There is no button
    beyond the last tab, so such an event cannot reach the page and the
    state stays as it is. *)
Definition click (i : nat) (activeTab : string) : string :=
  match nth_error buttons i with
  | Some handler => handler activeTab
  | None => activeTab
  end.

(** The state after mounting the page and a sequence of clicks. *)
Definition run (clicks : list nat) : string :=
  fold_left (fun activeTab i => click i activeTab) clicks initialTab.

End PatientPortal.

(** ** pages/ProviderDashboard.tsx *)

Module ProviderDashboard.

(** [useState('denial')] *)
Definition initialTab : string := "denial".

Definition tabs : list Tab :=
  [ mkTab "denial" "Denial Risk Scorer" DenialRiskScorer;
    mkTab "qa" "Claim QA" ClaimQA;
    mkTab "analytics" "Revenue Analytics" RevenueAnalytics;
    mkTab "coding" "Coding Recommendations" CodingRecommendations ].

(** [tabs.find(t => t.id === activeTab)?.component || DenialRiskScorer] *)
Definition ActiveComponent (activeTab : string) : Component :=
  js_or (opt_component (find (fun t => id t =? activeTab) tabs))
        DenialRiskScorer.

Definition onClick (tab : Tab) (activeTab : string) : string := id tab.

Definition buttonClassName (tab : Tab) (activeTab : string) : string :=
  "py-4 px-1 border-b-2 font-medium text-sm " ++
  (if activeTab =? id tab
   then "border-primary-500 text-primary-600"
   else "border-transparent text-gray-500 hover:text-gray-700 hover:border-gray-300").

Definition buttons : list (string -> string) := map onClick tabs.

Definition click (i : nat) (activeTab : string) : string :=
  match nth_error buttons i with
  | Some handler => handler activeTab
  | None => activeTab
  end.

Definition run (clicks : list nat) : string :=
  fold_left (fun activeTab i => click i activeTab) clicks initialTab.

End ProviderDashboard.

(** ** Rendering context

    A render reads the router's context and the pages' state cells, and may
    throw.  [Render A] threads that store and the outcome explicitly. *)

(** react-router's [Location] ([state] left out: no component reads it). *)
Record Location : Set := mkLocation {
  pathname : string;
  search : string;
  hash : string;
  key : string
}.

Record Store : Set := mkStore {
  routerContext : option Location;   (* [None] outside a [<Router>] *)
  patientActiveTab : string;
  providerActiveTab : string
}.

Inductive Result (A : Type) : Type :=
  | Ok (value : A)
  | Throw (message : string).
Arguments Ok {A} value.
Arguments Throw {A} message.

Definition Render (A : Type) : Type := Store -> Result A * Store.

Definition ret {A : Type} (a : A) : Render A := fun st => (Ok a, st).

Definition bind {A B : Type} (m : Render A) (k : A -> Render B) : Render B :=
  fun st =>
    match m st with
    | (Ok a, st') => k a st'
    | (Throw message, st') => (Throw message, st')
    end.

Notation "x <- m ;; k" := (bind m (fun x => k))
  (at level 61, m at next level, right associativity).

(** [useLocation()]: the location of the enclosing [<Router>]; throws when
    there is none. *)
Definition useLocation : Render Location :=
  fun st =>
    match routerContext st with
    | Some location => (Ok location, st)
    | None =>
        (Throw "useLocation() may be used only in the context of a <Router> component.", st)
    end.

(** ** components/Layout.tsx *)

Module Layout.

(** [location.pathname.startsWith('/patient')] *)
Definition isPatient (pathname : string) : bool :=
  startsWith pathname "/patient".

(** [location.pathname.startsWith('/provider')] *)
Definition isProvider (pathname : string) : bool :=
  startsWith pathname "/provider".

(** The first three lines of [Layout]: the highlight state
    [(isPatient, isProvider)]. *)
Definition highlight : Render (bool * bool) :=
  location <- useLocation ;;
  ret (isPatient (pathname location), isProvider (pathname location)).

(** [className] of a navigation link, by the flag that guards it. *)
Definition linkClassName (active : bool) : string :=
  "flex items-center px-4 py-2 rounded-lg transition-colors " ++
  (if active
   then "bg-primary-100 text-primary-700"
   else "text-gray-600 hover:bg-gray-100").

(** The two links of the navigation bar as drawn. *)
Record NavBar : Set := mkNavBar {
  patientLink : string;     (* className of [<Link to="/patient">] *)
  providerLink : string     (* className of [<Link to="/provider">] *)
}.

Definition Layout : Render NavBar :=
  flags <- highlight ;;
  ret (mkNavBar (linkClassName (fst flags)) (linkClassName (snd flags))).

(** A link is marked active when it carries the highlighted classes. *)
Definition markedActive (className : string) : bool :=
  className =? linkClassName true.

End Layout.

(** ** JavaScript's [decodeURIComponent]

    A JavaScript string is read here through its UTF-8 bytes.  An escape
    [%XX] stands for one octet; octets from 128 on must form, escape after
    escape, a well-formed UTF-8 sequence, and the decoded character is
    then exactly those bytes.  [None] stands for a thrown [URIError]. *)

Module URI.

(** The value of a hexadecimal digit. *)
Definition hexDigit (c : ascii) : option nat :=
  let n := nat_of_ascii c in
  if (48 <=? n)%nat && (n <=? 57)%nat then Some (n - 48)
  else if (65 <=? n)%nat && (n <=? 70)%nat then Some (n - 55)
  else if (97 <=? n)%nat && (n <=? 102)%nat then Some (n - 87)
  else None.

(** A code unit copied as it is, or the octet of an escape. *)
Inductive Token : Set :=
  | Lit (c : ascii)
  | Esc (octet : nat).

(** The escapes of a string; a percent sign that is not followed by two
    hexadecimal digits throws. *)
Fixpoint tokens (s : string) : option (list Token) :=
  match s with
  | EmptyString => Some []
  | String c rest =>
      if (c =? "%")%char then
        match rest with
        | String h1 (String h2 rest') =>
            match hexDigit h1, hexDigit h2 with
            | Some a, Some b => option_map (cons (Esc (16 * a + b))) (tokens rest')
            | _, _ => None
            end
        | _ => None
        end
      else option_map (cons (Lit c)) (tokens rest)
  end.

Definition within (lo hi b : nat) : bool := (lo <=? b)%nat && (b <=? hi)%nat.

Definition continuation (b : nat) : bool := within 128 191 b.

(** For the first octet of a multi-byte sequence: how many octets follow
    and the bounds of the first of them; [None] for an octet that cannot
    start a well-formed sequence. *)
Definition utf8Lead (b : nat) : option (nat * nat * nat) :=
  if (b <? 194)%nat then None
  else if (b <=? 223)%nat then Some (1, 128, 191)
  else if (b =? 224)%nat then Some (2, 160, 191)
  else if (b <=? 236)%nat then Some (2, 128, 191)
  else if (b =? 237)%nat then Some (2, 128, 159)
  else if (b <=? 239)%nat then Some (2, 128, 191)
  else if (b =? 240)%nat then Some (3, 144, 191)
  else if (b <=? 243)%nat then Some (3, 128, 191)
  else if (b =? 244)%nat then Some (3, 128, 143)
  else None.

(** The decoded bytes; an octet sequence that is not well-formed UTF-8, or
    whose continuation is not escaped, throws. *)
Fixpoint octets (ts : list Token) : option (list ascii) :=
  match ts with
  | [] => Some []
  | Lit c :: rest => option_map (cons c) (octets rest)
  | Esc b :: rest =>
      if (b <? 128)%nat then option_map (cons (ascii_of_nat b)) (octets rest)
      else
        match utf8Lead b with
        | Some (1, lo, hi) =>
            match rest with
            | Esc b2 :: rest' =>
                if within lo hi b2
                then option_map
                       (fun l => ascii_of_nat b :: ascii_of_nat b2 :: l)
                       (octets rest')
                else None
            | _ => None
            end
        | Some (2, lo, hi) =>
            match rest with
            | Esc b2 :: Esc b3 :: rest' =>
                if within lo hi b2 && continuation b3
                then option_map
                       (fun l => ascii_of_nat b :: ascii_of_nat b2
                                 :: ascii_of_nat b3 :: l)
                       (octets rest')
                else None
            | _ => None
            end
        | Some (3, lo, hi) =>
            match rest with
            | Esc b2 :: Esc b3 :: Esc b4 :: rest' =>
                if within lo hi b2 && continuation b3 && continuation b4
                then option_map
                       (fun l => ascii_of_nat b :: ascii_of_nat b2
                                 :: ascii_of_nat b3 :: ascii_of_nat b4 :: l)
                       (octets rest')
                else None
            | _ => None
            end
        | _ => None
        end
  end.

Definition decodeURIComponent (s : string) : option string :=
  match tokens s with
  | Some ts => option_map string_of_list_ascii (octets ts)
  | None => None
  end.

End URI.

(** ** react-router's route matching

    [App.tsx] hands its route table to react-router, a dependency of the
    frontend.  What the table means is fixed by that library's matcher,
    modelled here after its version 6 behaviour for static patterns with an
    optional trailing star.  The pathname is percent-decoded segment by
    segment before it is matched.  The pattern is compiled to a regular
    expression with the [i] flag, anchored at both ends: the literal part
    of the pattern, then

    - without a splat, any number of slashes;
    - with a splat, either any number of slashes, or one slash and at least
      one more character (the splat parameter), none of them a line
      terminator: the expression's dot matches no line terminator.

    Dynamic [:param] segments are not modelled; no pattern of [App.tsx]
    has a parameter. *)

Module ReactRouter.

(** ASCII case folding, for the [i] flag. *)
Definition foldCase (c : ascii) : ascii :=
  let n := nat_of_ascii c in
  if (65 <=? n)%nat && (n <=? 90)%nat then ascii_of_nat (n + 32) else c.

(** Leading slashes removed. *)
Fixpoint dropSlashes (s : string) : string :=
  match s with
  | String c rest => if (c =? "/")%char then dropSlashes rest else s
  | EmptyString => s
  end.

(** Nothing but slashes up to the end. *)
Definition allSlashes (s : string) : bool := dropSlashes s =? "".

Definition reverse (s : string) : string :=
  string_of_list_ascii (rev (list_ascii_of_string s)).

(** [path.endsWith] of a star. *)
Definition endsWithStar (path : string) : bool :=
  match reverse path with
  | String "*" _ => true
  | _ => false
  end.

(** The pattern without its trailing star, if any, and without the
    slashes that end what is left. *)
Definition stripTrailing (path : string) : string :=
  let r := reverse path in
  let r := match r with String "*" r' => r' | _ => r end in
  reverse (dropSlashes r).

(** [compilePath]: the literal part of the expression, which always
    starts with one slash, and whether the pattern ends in a splat. *)
Definition compilePath (path : string) : string * bool :=
  (String "/" (dropSlashes (stripTrailing path)), endsWithStar path).

(** The literal part matched at the start of the pathname, ignoring case;
    yields what is left of the pathname. *)
Fixpoint matchLiteral (literal pathname : string) : option string :=
  match literal with
  | EmptyString => Some pathname
  | String c literal' =>
      match pathname with
      | EmptyString => None
      | String d pathname' =>
          if Ascii.eqb (foldCase c) (foldCase d)
          then matchLiteral literal' pathname'
          else None
      end
  end.

(** A line terminator of JavaScript occurs in the string: LF, CR, or
    U+2028 or U+2029, whose UTF-8 bytes are 226 128 168 and 226 128 169. *)
Fixpoint hasLineTerminator (s : string) : bool :=
  match s with
  | EmptyString => false
  | String c rest =>
      (nat_of_ascii c =? 10)%nat || (nat_of_ascii c =? 13)%nat ||
      match rest with
      | String c2 (String c3 _) =>
          (nat_of_ascii c =? 226)%nat && (nat_of_ascii c2 =? 128)%nat &&
          ((nat_of_ascii c3 =? 168)%nat || (nat_of_ascii c3 =? 169)%nat)
      | _ => false
      end ||
      hasLineTerminator rest
  end.

(** What may follow the literal part of a splat pattern: nothing but
    slashes, or a slash and a non-empty splat parameter free of line
    terminators. *)
Definition splatRest (rest : string) : bool :=
  allSlashes rest ||
  match rest with
  | String c more =>
      (c =? "/")%char && negb (more =? "") && negb (hasLineTerminator more)
  | EmptyString => false
  end.

(** [matchPath({ path, end: true }, pathname) != null].  The patterns
    that are a bare star, alone or after one slash, accept any rest free
    of line terminators. *)
Definition matchPath (path pathname : string) : bool :=
  let (literal, splat) := compilePath path in
  match matchLiteral literal pathname with
  | None => false
  | Some rest =>
      if splat then
        if (path =? "*") || (path =? "/*") then negb (hasLineTerminator rest)
        else splatRest rest
      else allSlashes rest
  end.

(** [value.split("/")] *)
Fixpoint splitSlash (value : string) : list string :=
  match value with
  | EmptyString => [""]
  | String c rest =>
      if (c =? "/")%char then "" :: splitSlash rest
      else
        match splitSlash rest with
        | segment :: segments => String c segment :: segments
        | [] => [String c ""]
        end
  end.

(** [segments.join("/")] *)
Fixpoint joinSlash (segments : list string) : string :=
  match segments with
  | [] => ""
  | segment :: rest =>
      segment ++ match rest with
                 | [] => ""
                 | _ :: _ => String "/" (joinSlash rest)
                 end
  end.

(** [v.replace(/\//g, "%2F")] *)
Fixpoint escapeSlashes (v : string) : string :=
  match v with
  | EmptyString => ""
  | String c rest =>
      if (c =? "/")%char then "%2F" ++ escapeSlashes rest
      else String c (escapeSlashes rest)
  end.

(** [decodeURIComponent(v).replace(/\//g, "%2F")] *)
Definition decodeSegment (v : string) : option string :=
  option_map escapeSlashes (URI.decodeURIComponent v).

(** [segments.map(f)] where [f] may throw. *)
Fixpoint mapThrowing (f : string -> option string) (segments : list string)
  : option (list string) :=
  match segments with
  | [] => Some []
  | segment :: rest =>
      match f segment with
      | Some v =>
          match mapThrowing f rest with
          | Some vs => Some (v :: vs)
          | None => None
          end
      | None => None
      end
  end.

(** [decodePath]: every segment decoded, a decoded slash escaped again;
    when a segment cannot be decoded the value is returned as it is. *)
Definition decodePath (value : string) : string :=
  match mapThrowing decodeSegment (splitSlash value) with
  | Some segments => joinSlash segments
  | None => value
  end.

End ReactRouter.

(** ** App.tsx *)

Module App.

Inductive Page : Set :=
  | PatientPortalPage       (* [<PatientPortal />] *)
  | ProviderDashboardPage.  (* [<ProviderDashboard />] *)

Inductive Element : Set :=
  | Navigate (to : string) (replace : bool)   (* [<Navigate to=... replace />] *)
  | Display (page : Page).

Record RouteObject : Set := mkRoute {
  path : string;
  element : Element
}.

(** The children of [<Routes>]. *)
Definition routes : list RouteObject :=
  [ mkRoute "/" (Navigate "/patient" true);
    mkRoute "/patient/*" (Display PatientPortalPage);
    mkRoute "/provider/*" (Display ProviderDashboardPage) ].

(** [<Routes>]: the route whose pattern matches the decoded
    [location.pathname || "/"].  react-router ranks the routes before it
    tries them; the three patterns here never match the same pathname
    ([routes_exclusive] below), so the rank cannot change the answer and
    the routes are tried as listed. *)
Definition matchRoutes (routes : list RouteObject) (pathname : string)
  : option RouteObject :=
  let pathname := if pathname =? "" then "/" else pathname in
  let decoded := ReactRouter.decodePath pathname in
  find (fun route => ReactRouter.matchPath (path route) decoded) routes.

(** What the router ends up showing. *)
Inductive View : Set :=
  | Shown (pathname : string) (page : Page)
  | Blank (pathname : string).      (* no route matched: nothing is drawn *)

(** Rendering [<Routes>] at a pathname.  A matched [<Navigate>] moves the
    location to its absolute target and the routes are matched again;
    [fuel] bounds the number of renders. *)
Fixpoint settle (fuel : nat) (pathname : string) : option View :=
  match fuel with
  | O => None
  | S fuel' =>
      match matchRoutes routes pathname with
      | None => Some (Blank pathname)
      | Some route =>
          match element route with
          | Display page => Some (Shown pathname page)
          | Navigate to _ => settle fuel' to
          end
      end
  end.

End App.

(** A path lies under a section when it is the section itself or continues
    it after a slash. *)
Definition under (section pathname : string) : Prop :=
  pathname = section \/ exists rest, pathname = section ++ "/" ++ rest.

(** [prefix] matches [pathname]: the pathname is the prefix followed by
    anything. *)
Definition prefixMatches (prefix pathname : string) : Prop :=
  exists rest, pathname = prefix ++ rest.

(** Of the tabs of [arr], the selected component is the one mapped to [t]
    and is mapped to no tab with another identifier. *)
Definition rendersOnly (arr : list Tab) (selected : Component) (t : Tab)
  : Prop :=
  selected = component t /\
  forall t', In t' arr -> id t' <> id t -> component t' <> selected.

(** ** What the pages and the navigation bar draw *)

Module TabBar.

(** A [<button>] of a page's tab bar: its [key], its [className] and the
    label it shows. *)
Record Button : Set := mkButton {
  key : string;
  className : string;
  children : string
}.

(** The classes a tab button carries when [activeTab === tab.id]. *)
Definition activeClassName : string :=
  "py-4 px-1 border-b-2 font-medium text-sm border-primary-500 text-primary-600".

Definition isHighlighted (button : Button) : bool :=
  className button =? activeClassName.

(** What a page returns: heading, tag line, tab bar and
    [<ActiveComponent />]. *)
Record PageView : Set := mkPageView {
  heading : string;
  tagline : string;
  nav : list Button;
  body : Component
}.

(** The buttons of the tab bar that are drawn highlighted. *)
Definition highlighted (view : PageView) : list Button :=
  filter isHighlighted (nav view).

End TabBar.

(** The JSX returned by [PatientPortal] in state [activeTab]. *)
Definition PatientPortal_render (activeTab : string) : TabBar.PageView :=
  TabBar.mkPageView
    "Patient Portal"
    "Navigate healthcare costs with AI-powered insights"
    (map (fun tab =>
            TabBar.mkButton (id tab)
                            (PatientPortal.buttonClassName tab activeTab)
                            (label tab))
         PatientPortal.tabs)
    (PatientPortal.ActiveComponent activeTab).

(** The JSX returned by [ProviderDashboard] in state [activeTab]. *)
Definition ProviderDashboard_render (activeTab : string) : TabBar.PageView :=
  TabBar.mkPageView
    "Provider Dashboard"
    "Optimize billing and reduce claim denials"
    (map (fun tab =>
            TabBar.mkButton (id tab)
                            (ProviderDashboard.buttonClassName tab activeTab)
                            (label tab))
         ProviderDashboard.tabs)
    (ProviderDashboard.ActiveComponent activeTab).

Module NavLinks.

(** A [<Link>] of the Layout's navigation bar: its target, its text and
    the flag that guards its highlighted classes. *)
Record NavLink : Set := mkNavLink {
  to : string;
  text : string;
  active : string -> bool
}.

Definition links : list NavLink :=
  [ mkNavLink "/patient" "Patient Portal" Layout.isPatient;
    mkNavLink "/provider" "Provider Dashboard" Layout.isProvider ].

End NavLinks.

Example compile_patient :
  ReactRouter.compilePath "/patient/*" = ("/patient", true).
Proof. reflexivity. Qed.

Example compile_root : ReactRouter.compilePath "/" = ("/", false).
Proof. reflexivity. Qed.

Example decodePath_examples :
  ReactRouter.decodePath "/%70atient/a%2Fb" = "/patient/a%2Fb" /\
  ReactRouter.decodePath "/patient/%E2%82%AC"
    = "/patient/" ++ String (ascii_of_nat 226) (String (ascii_of_nat 130)
                       (String (ascii_of_nat 172) "")) /\
  ReactRouter.decodePath "/patient/%C0%80" = "/patient/%C0%80" /\
  ReactRouter.decodePath "/patient/%4" = "/patient/%4" /\
  ReactRouter.decodePath "/a/%zz/%41" = "/a/%zz/%41".
Proof. repeat split. Qed.

Example settle_decoded_examples :
  App.settle 1 "/%70atient" = Some (App.Shown "/%70atient" App.PatientPortalPage) /\
  App.settle 1 "/patient/%0A" = Some (App.Blank "/patient/%0A") /\
  App.settle 1 "/patient/%E2%80%A8" = Some (App.Blank "/patient/%E2%80%A8") /\
  App.settle 1 "/patient/%" = Some (App.Shown "/patient/%" App.PatientPortalPage) /\
  App.settle 1 "/provider/%2F" = Some (App.Shown "/provider/%2F" App.ProviderDashboardPage).
Proof. repeat split. Qed.

Example settle_examples :
  App.settle 2 "/" = Some (App.Shown "/patient" App.PatientPortalPage) /\
  App.settle 1 "/PROVIDER//x" = Some (App.Shown "/PROVIDER//x" App.ProviderDashboardPage) /\
  App.settle 1 "/patientfoo" = Some (App.Blank "/patientfoo") /\
  App.settle 1 "/patient/" = Some (App.Shown "/patient/" App.PatientPortalPage).
Proof. repeat split; reflexivity. Qed.

(** * Properties *)

(** ** Lookup of a tab by its identifier *)

Section TabLookup.

Variable arr : list Tab.

Lemma find_id_inv (s : string) (t : Tab) :
  find (fun x => id x =? s) arr = Some t -> In t arr /\ id t = s.
Proof.
  induction arr as [|x rest IH]; simpl; [discriminate|].
  destruct (id x =? s) eqn:E.
  - intros [= <-]. apply String.eqb_eq in E. auto.
  - intros H. destruct (IH H). auto.
Qed.

Lemma find_id_None (s : string) :
  ~ In s (ids arr) -> find (fun x => id x =? s) arr = None.
Proof.
  induction arr as [|x rest IH]; simpl; [reflexivity|].
  intros H. destruct (String.eqb_spec (id x) s) as [E|_].
  - exfalso. apply H. now left.
  - apply IH. intros Hin. apply H. now right.
Qed.

Lemma find_id_Some (t : Tab) :
  NoDup (ids arr) -> In t arr -> find (fun x => id x =? id t) arr = Some t.
Proof.
  induction arr as [|x rest IH]; simpl; [intros _ []|].
  intros Hnd [-> | Hin].
  - now rewrite String.eqb_refl.
  - inversion Hnd as [|? ? Hx Hrest]; subst.
    destruct (String.eqb_spec (id x) (id t)) as [E|_].
    + exfalso. apply Hx. rewrite E. now apply in_map.
    + now apply IH.
Qed.

Lemma component_injective (t t' : Tab) :
  NoDup (map component arr) ->
  In t arr -> In t' arr -> component t' = component t -> t' = t.
Proof.
  induction arr as [|x rest IH]; simpl; [intros _ []|].
  intros Hnd Ht Ht' E. inversion Hnd as [|? ? Hx Hrest]; subst.
  destruct Ht as [-> | Ht], Ht' as [-> | Ht']; auto.
  - exfalso. apply Hx. rewrite <- E. now apply in_map.
  - exfalso. apply Hx. rewrite E. now apply in_map.
Qed.

(** A found tab's component is what [?.component || fallback] yields. *)
Lemma js_or_found (t : Tab) (fallback : Component) :
  js_or (opt_component (Some t)) fallback = component t.
Proof. reflexivity. Qed.

End TabLookup.

Lemma patient_ids_NoDup : NoDup (ids PatientPortal.tabs).
Proof. repeat constructor; simpl; intuition discriminate. Qed.

Lemma patient_components_NoDup : NoDup (map component PatientPortal.tabs).
Proof. repeat constructor; simpl; intuition discriminate. Qed.

Lemma provider_ids_NoDup : NoDup (ids ProviderDashboard.tabs).
Proof. repeat constructor; simpl; intuition discriminate. Qed.

Lemma provider_components_NoDup : NoDup (map component ProviderDashboard.tabs).
Proof. repeat constructor; simpl; intuition discriminate. Qed.

(** ** [startsWith] is the prefix relation *)

Lemma substring_prefix (p s : string) :
  substring 0 (String.length p) s = p -> exists rest, s = p ++ rest.
Proof.
  revert s. induction p as [|c p IH]; intros s; simpl.
  - intros _. now exists s.
  - destruct s as [|d s]; simpl; [discriminate|].
    intros [= -> H]. destruct (IH _ H) as [rest ->]. now exists rest.
Qed.

Lemma substring_append (p rest : string) :
  substring 0 (String.length p) (p ++ rest) = p.
Proof.
  induction p as [|c p IH]; simpl.
  - now destruct rest.
  - now rewrite IH.
Qed.

Lemma length_append (p rest : string) :
  String.length (p ++ rest) = String.length p + String.length rest.
Proof. induction p as [|c p IH]; simpl; [reflexivity | now rewrite IH]. Qed.

Lemma startsWith_spec (s p : string) :
  startsWith s p = true <-> prefixMatches p s.
Proof.
  unfold startsWith, prefixMatches. split.
  - destruct (String.length s <? String.length p)%nat; [discriminate|].
    intros H. apply String.eqb_eq in H. now apply substring_prefix.
  - intros [rest ->]. rewrite length_append.
    destruct (Nat.ltb_spec (String.length p + String.length rest) (String.length p));
      [lia|].
    apply String.eqb_eq, substring_append.
Qed.

(** ** The tab selector of the two pages *)

Lemma lookup_rendersOnly (arr : list Tab) (fallback : Component) (t : Tab) :
  NoDup (ids arr) -> NoDup (map component arr) -> In t arr ->
  rendersOnly arr
    (js_or (opt_component (find (fun x => id x =? id t) arr)) fallback) t.
Proof.
  intros Hid Hc Hin. rewrite (find_id_Some arr t Hid Hin), js_or_found.
  split; [reflexivity|].
  intros t' Hin' Hne E. apply Hne. f_equal.
  now apply (component_injective arr t t' Hc).
Qed.

(** C1. For every tab [t] of a page's [tabs], when [activeTab] equals the
    identifier of [t] the page selects exactly the component mapped to
    [t], and no component mapped to a tab with a different identifier; in
    PatientPortal and in ProviderDashboard. *)
Theorem active_tab_selects_its_component (t : Tab) (activeTab : string) :
  activeTab = id t ->
  (In t PatientPortal.tabs ->
   rendersOnly PatientPortal.tabs (PatientPortal.ActiveComponent activeTab) t) /\
  (In t ProviderDashboard.tabs ->
   rendersOnly ProviderDashboard.tabs
     (ProviderDashboard.ActiveComponent activeTab) t).
Proof.
  intros ->. split; intros Hin.
  - apply lookup_rendersOnly;
      auto using patient_ids_NoDup, patient_components_NoDup.
  - apply lookup_rendersOnly;
      auto using provider_ids_NoDup, provider_components_NoDup.
Qed.

Lemma active_tab_selects_its_component_witness :
  rendersOnly PatientPortal.tabs (PatientPortal.ActiveComponent "bill")
    (mkTab "bill" "Bill Analysis" BillAnalysis) /\
  rendersOnly ProviderDashboard.tabs (ProviderDashboard.ActiveComponent "coding")
    (mkTab "coding" "Coding Recommendations" CodingRecommendations).
Proof.
  split.
  - apply (active_tab_selects_its_component
             (mkTab "bill" "Bill Analysis" BillAnalysis) "bill");
      [reflexivity | simpl; auto].
  - apply (active_tab_selects_its_component
             (mkTab "coding" "Coding Recommendations" CodingRecommendations)
             "coding");
      [reflexivity | simpl; auto 6].
Defined.

(** C2. For every identifier outside a page's enumerated tab set, the
    lookup over [tabs] yields the page's default component: CostEstimator
    in PatientPortal, DenialRiskScorer in ProviderDashboard. *)
Theorem unknown_tab_falls_back (s : string) :
  (~ In s (ids PatientPortal.tabs) ->
   PatientPortal.ActiveComponent s = CostEstimator) /\
  (~ In s (ids ProviderDashboard.tabs) ->
   ProviderDashboard.ActiveComponent s = DenialRiskScorer).
Proof.
  split; intros H.
  - unfold PatientPortal.ActiveComponent. now rewrite find_id_None.
  - unfold ProviderDashboard.ActiveComponent. now rewrite find_id_None.
Qed.

Lemma unknown_tab_falls_back_witness :
  PatientPortal.ActiveComponent "settings" = CostEstimator /\
  ProviderDashboard.ActiveComponent "" = DenialRiskScorer.
Proof.
  split.
  - apply (unknown_tab_falls_back "settings").
    simpl. intuition discriminate.
  - apply (unknown_tab_falls_back "").
    simpl. intuition discriminate.
Defined.

(** C4. On mount, before any click, PatientPortal's [activeTab] is the
    identifier of the Cost Estimator tab and ProviderDashboard's is the
    identifier of the Denial Risk Scorer tab, so these components are the
    ones rendered by default. *)
Theorem initial_tab_is_default :
  (find (fun t => id t =? PatientPortal.run []) PatientPortal.tabs
     = Some (mkTab "estimate" "Cost Estimator" CostEstimator) /\
   PatientPortal.ActiveComponent (PatientPortal.run []) = CostEstimator) /\
  (find (fun t => id t =? ProviderDashboard.run []) ProviderDashboard.tabs
     = Some (mkTab "denial" "Denial Risk Scorer" DenialRiskScorer) /\
   ProviderDashboard.ActiveComponent (ProviderDashboard.run [])
     = DenialRiskScorer).
Proof. repeat split. Qed.

(** ** Clicks on the tab bar *)

(** A button's handler writes the identifier of a tab of [arr]. *)
Lemma handler_writes_listed_id
  (onClick : Tab -> string -> string) (arr : list Tab) (i : nat)
  (handler : string -> string) :
  (forall tab s, onClick tab s = id tab) ->
  nth_error (map onClick arr) i = Some handler ->
  forall s, In (handler s) (ids arr).
Proof.
  intros Hw H s. rewrite nth_error_map in H.
  destruct (nth_error arr i) as [tab|] eqn:E; [|discriminate].
  injection H as <-. rewrite Hw. apply in_map.
  now apply nth_error_In with i.
Qed.

Lemma patient_click_keeps_listed (i : nat) (s : string) :
  In s (ids PatientPortal.tabs) ->
  In (PatientPortal.click i s) (ids PatientPortal.tabs).
Proof.
  intros Hs. unfold PatientPortal.click.
  destruct (nth_error PatientPortal.buttons i) as [handler|] eqn:E; [|exact Hs].
  now apply (handler_writes_listed_id PatientPortal.onClick _ i).
Qed.

Lemma provider_click_keeps_listed (i : nat) (s : string) :
  In s (ids ProviderDashboard.tabs) ->
  In (ProviderDashboard.click i s) (ids ProviderDashboard.tabs).
Proof.
  intros Hs. unfold ProviderDashboard.click.
  destruct (nth_error ProviderDashboard.buttons i) as [handler|] eqn:E;
    [|exact Hs].
  now apply (handler_writes_listed_id ProviderDashboard.onClick _ i).
Qed.

(** An invariant of every step holds after any number of steps. *)
Lemma fold_left_invariant {S E : Type} (step : S -> E -> S) (Inv : S -> Prop) :
  (forall s e, Inv s -> Inv (step s e)) ->
  forall events s, Inv s -> Inv (fold_left step events s).
Proof.
  intros Hstep events. induction events as [|e events IH]; simpl; auto.
Qed.

(** C6. After mounting and any sequence of clicks on the tab buttons, the
    [activeTab] of each page is one of the identifiers of that page's
    [tabs]. *)
Theorem active_tab_stays_listed (clicks : list nat) :
  In (PatientPortal.run clicks) (ids PatientPortal.tabs) /\
  In (ProviderDashboard.run clicks) (ids ProviderDashboard.tabs).
Proof.
  split.
  - apply (fold_left_invariant _ (fun s => In s (ids PatientPortal.tabs))).
    + intros s i. apply patient_click_keeps_listed.
    + simpl. auto.
  - apply (fold_left_invariant _ (fun s => In s (ids ProviderDashboard.tabs))).
    + intros s i. apply provider_click_keeps_listed.
    + simpl. auto.
Qed.

(** C9. Clicking the button of tab [t] while [activeTab] already equals
    the identifier of [t] leaves [activeTab] as it is, and with it the
    component selected for rendering; in both pages. *)
Theorem click_on_active_tab_is_idempotent (i : nat) (t : Tab) (activeTab : string) :
  activeTab = id t ->
  (nth_error PatientPortal.tabs i = Some t ->
   PatientPortal.click i activeTab = activeTab /\
   PatientPortal.ActiveComponent (PatientPortal.click i activeTab)
     = PatientPortal.ActiveComponent activeTab) /\
  (nth_error ProviderDashboard.tabs i = Some t ->
   ProviderDashboard.click i activeTab = activeTab /\
   ProviderDashboard.ActiveComponent (ProviderDashboard.click i activeTab)
     = ProviderDashboard.ActiveComponent activeTab).
Proof.
  intros ->. split; intros Hi.
  - assert (E : PatientPortal.click i (id t) = id t).
    { unfold PatientPortal.click, PatientPortal.buttons.
      now rewrite (map_nth_error PatientPortal.onClick i _ Hi). }
    now rewrite E.
  - assert (E : ProviderDashboard.click i (id t) = id t).
    { unfold ProviderDashboard.click, ProviderDashboard.buttons.
      now rewrite (map_nth_error ProviderDashboard.onClick i _ Hi). }
    now rewrite E.
Qed.

Lemma click_on_active_tab_is_idempotent_witness :
  (PatientPortal.click 2 "assistance" = "assistance" /\
   PatientPortal.ActiveComponent (PatientPortal.click 2 "assistance")
     = PatientPortal.ActiveComponent "assistance") /\
  (ProviderDashboard.click 1 "qa" = "qa" /\
   ProviderDashboard.ActiveComponent (ProviderDashboard.click 1 "qa")
     = ProviderDashboard.ActiveComponent "qa").
Proof.
  split.
  - apply (click_on_active_tab_is_idempotent 2
             (mkTab "assistance" "Find Assistance" AssistanceFinder)
             "assistance"); reflexivity.
  - apply (click_on_active_tab_is_idempotent 1
             (mkTab "qa" "Claim QA" ClaimQA) "qa"); reflexivity.
Defined.

(** C10. In each page the fallback of the lookup is the component mapped
    to the page's initial tab, so an identifier outside the tab set
    renders the same component as the initial selection. *)
Theorem fallback_is_initial_component (s : string) :
  (~ In s (ids PatientPortal.tabs) ->
   opt_component (find (fun t => id t =? PatientPortal.initialTab)
                       PatientPortal.tabs) = Some CostEstimator /\
   PatientPortal.ActiveComponent s = CostEstimator /\
   PatientPortal.ActiveComponent s
     = PatientPortal.ActiveComponent PatientPortal.initialTab) /\
  (~ In s (ids ProviderDashboard.tabs) ->
   opt_component (find (fun t => id t =? ProviderDashboard.initialTab)
                       ProviderDashboard.tabs) = Some DenialRiskScorer /\
   ProviderDashboard.ActiveComponent s = DenialRiskScorer /\
   ProviderDashboard.ActiveComponent s
     = ProviderDashboard.ActiveComponent ProviderDashboard.initialTab).
Proof.
  split; intros H.
  - assert (E : PatientPortal.ActiveComponent s = CostEstimator).
    { unfold PatientPortal.ActiveComponent. now rewrite find_id_None. }
    rewrite E. repeat split.
  - assert (E : ProviderDashboard.ActiveComponent s = DenialRiskScorer).
    { unfold ProviderDashboard.ActiveComponent. now rewrite find_id_None. }
    rewrite E. repeat split.
Qed.

Lemma fallback_is_initial_component_witness :
  PatientPortal.ActiveComponent "denial"
    = PatientPortal.ActiveComponent PatientPortal.initialTab /\
  ProviderDashboard.ActiveComponent "estimate"
    = ProviderDashboard.ActiveComponent ProviderDashboard.initialTab.
Proof.
  split.
  - apply (fallback_is_initial_component "denial").
    simpl. intuition discriminate.
  - apply (fallback_is_initial_component "estimate").
    simpl. intuition discriminate.
Defined.

(** ** The navigation bar *)

Lemma markedActive_linkClassName (active : bool) :
  Layout.markedActive (Layout.linkClassName active) = active.
Proof. now destruct active. Qed.

Lemma Layout_in_router (location : Location) (st : Store) :
  routerContext st = Some location ->
  Layout.Layout st =
    (Ok (Layout.mkNavBar
           (Layout.linkClassName (Layout.isPatient (pathname location)))
           (Layout.linkClassName (Layout.isProvider (pathname location)))),
     st).
Proof.
  intros H. unfold Layout.Layout, Layout.highlight, bind, useLocation, ret.
  now rewrite H.
Qed.

Lemma sections_disjoint (P : string) :
  prefixMatches "/patient" P -> prefixMatches "/provider" P -> False.
Proof. intros [r1 ->] [r2 H]. simpl in H. discriminate. Qed.

(** C3. For every path, inside the router the Layout marks the Patient
    Portal link active exactly when the path starts with [/patient], the
    Provider Dashboard link exactly when it starts with [/provider], and
    never both. *)
Theorem nav_marks_matching_section (location : Location) (patientTab providerTab : string) :
  let st := mkStore (Some location) patientTab providerTab in
  exists nav,
    Layout.Layout st = (Ok nav, st) /\
    (Layout.markedActive (Layout.patientLink nav) = true
       <-> prefixMatches "/patient" (pathname location)) /\
    (Layout.markedActive (Layout.providerLink nav) = true
       <-> prefixMatches "/provider" (pathname location)) /\
    ~ (Layout.markedActive (Layout.patientLink nav) = true /\
       Layout.markedActive (Layout.providerLink nav) = true).
Proof.
  intros st. eexists. split; [now apply Layout_in_router|].
  simpl. rewrite !markedActive_linkClassName.
  unfold Layout.isPatient, Layout.isProvider.
  repeat split; try apply startsWith_spec.
  intros [H1 H2]. apply startsWith_spec in H1, H2.
  exact (sections_disjoint _ H1 H2).
Qed.

(** C7. The highlight state is a function of the path alone: two renders
    inside a router at locations with the same pathname yield the same
    [(isPatient, isProvider)], whatever else the locations and the stores
    hold; neither render throws, and each leaves its store as it was. *)
Theorem highlight_is_pure (st1 st2 : Store) (l1 l2 : Location) :
  routerContext st1 = Some l1 ->
  routerContext st2 = Some l2 ->
  pathname l1 = pathname l2 ->
  exists flags,
    flags = (Layout.isPatient (pathname l1), Layout.isProvider (pathname l1)) /\
    Layout.highlight st1 = (Ok flags, st1) /\
    Layout.highlight st2 = (Ok flags, st2).
Proof.
  intros H1 H2 E. eexists. split; [reflexivity|].
  unfold Layout.highlight, bind, useLocation, ret.
  rewrite H1, H2, E. split; reflexivity.
Qed.

Lemma highlight_is_pure_witness :
  exists flags,
    flags = (true, false) /\
    Layout.highlight
      (mkStore (Some (mkLocation "/patient/bills" "" "" "default")) "estimate" "denial")
      = (Ok flags,
         mkStore (Some (mkLocation "/patient/bills" "" "" "default")) "estimate" "denial") /\
    Layout.highlight
      (mkStore (Some (mkLocation "/patient/bills" "?q=1" "#top" "k7")) "risk" "qa")
      = (Ok flags,
         mkStore (Some (mkLocation "/patient/bills" "?q=1" "#top" "k7")) "risk" "qa").
Proof.
  apply (highlight_is_pure
           (mkStore (Some (mkLocation "/patient/bills" "" "" "default")) "estimate" "denial")
           (mkStore (Some (mkLocation "/patient/bills" "?q=1" "#top" "k7")) "risk" "qa")
           (mkLocation "/patient/bills" "" "" "default")
           (mkLocation "/patient/bills" "?q=1" "#top" "k7"));
    reflexivity.
Defined.

(** ** The route table *)

Lemma matchLiteral_cons (c : ascii) (literal pathname rest : string) :
  ReactRouter.matchLiteral (String c literal) pathname = Some rest ->
  exists d pathname',
    pathname = String d pathname' /\
    ReactRouter.foldCase c = ReactRouter.foldCase d /\
    ReactRouter.matchLiteral literal pathname' = Some rest.
Proof.
  destruct pathname as [|d pathname']; simpl; [discriminate|].
  destruct (Ascii.eqb_spec (ReactRouter.foldCase c) (ReactRouter.foldCase d))
    as [E|_]; [|discriminate].
  intros H. now exists d, pathname'.
Qed.

Lemma allSlashes_cons (d : ascii) (s : string) :
  ReactRouter.allSlashes (String d s) = true -> d = "/"%char.
Proof.
  unfold ReactRouter.allSlashes. simpl.
  destruct (Ascii.eqb_spec d "/") as [E|_]; [auto | discriminate].
Qed.

(** The three patterns, unfolded to their compiled form. *)
Lemma matchPath_root (p : string) :
  ReactRouter.matchPath "/" p =
    match ReactRouter.matchLiteral "/" p with
    | Some rest => ReactRouter.allSlashes rest
    | None => false
    end.
Proof. reflexivity. Qed.

Lemma matchPath_patient (p : string) :
  ReactRouter.matchPath "/patient/*" p =
    match ReactRouter.matchLiteral "/patient" p with
    | Some rest => ReactRouter.splatRest rest
    | None => false
    end.
Proof. reflexivity. Qed.

Lemma matchPath_provider (p : string) :
  ReactRouter.matchPath "/provider/*" p =
    match ReactRouter.matchLiteral "/provider" p with
    | Some rest => ReactRouter.splatRest rest
    | None => false
    end.
Proof. reflexivity. Qed.

Lemma matchLiteral_append (literal rest : string) :
  ReactRouter.matchLiteral literal (literal ++ rest) = Some rest.
Proof.
  induction literal as [|c literal IH]; simpl; [reflexivity|].
  now rewrite Ascii.eqb_refl.
Qed.

(** *** Decoding a pathname *)

Lemma tokens_nonempty (c : ascii) (s : string) (ts : list URI.Token) :
  URI.tokens (String c s) = Some ts -> ts <> [].
Proof.
  simpl. destruct (c =? "%")%char.
  - destruct s as [|h1 [|h2 s']]; try discriminate.
    destruct (URI.hexDigit h1), (URI.hexDigit h2); try discriminate.
    destruct (URI.tokens s'); simpl; intros [= <-]; discriminate.
  - destruct (URI.tokens s); simpl; intros [= <-]; discriminate.
Qed.

Lemma octets_nonempty (t : URI.Token) (ts : list URI.Token) (l : list ascii) :
  URI.octets (t :: ts) = Some l -> l <> [].
Proof.
  destruct t as [c|b]; cbn [URI.octets].
  - destruct (URI.octets ts); simpl; intros [= <-]; discriminate.
  - destruct (b <? 128)%nat.
    + destruct (URI.octets ts); simpl; intros [= <-]; discriminate.
    + destruct (URI.utf8Lead b) as [[[[|[|[|[|n]]]] lo] hi]|]; try discriminate.
      * destruct ts as [|[c2|b2] r]; try discriminate.
        destruct (URI.within lo hi b2); try discriminate.
        destruct (URI.octets r); simpl; intros [= <-]; discriminate.
      * destruct ts as [|[c2|b2] [|[c3|b3] r]]; try discriminate.
        destruct (URI.within lo hi b2 && URI.continuation b3); try discriminate.
        destruct (URI.octets r); simpl; intros [= <-]; discriminate.
      * destruct ts as [|[c2|b2] [|[c3|b3] [|[c4|b4] r]]]; try discriminate.
        destruct (URI.within lo hi b2 && URI.continuation b3
                  && URI.continuation b4); try discriminate.
        destruct (URI.octets r); simpl; intros [= <-]; discriminate.
Qed.

(** Decoding never empties a segment. *)
Lemma decode_nonempty (c : ascii) (s x : string) :
  URI.decodeURIComponent (String c s) = Some x -> x <> "".
Proof.
  unfold URI.decodeURIComponent.
  destruct (URI.tokens (String c s)) as [ts|] eqn:E; [|discriminate].
  apply tokens_nonempty in E. destruct ts as [|t ts]; [congruence|].
  destruct (URI.octets (t :: ts)) as [l|] eqn:El; [|discriminate].
  apply octets_nonempty in El. destruct l; [congruence|].
  simpl. intros [= <-]. discriminate.
Qed.

(** A character other than the percent sign is copied. *)
Lemma decode_literal (c : ascii) (s : string) :
  c <> "%"%char ->
  URI.decodeURIComponent (String c s)
    = option_map (String c) (URI.decodeURIComponent s).
Proof.
  intros Hc. apply Ascii.eqb_neq in Hc.
  unfold URI.decodeURIComponent. cbn [URI.tokens]. rewrite Hc.
  destruct (URI.tokens s) as [ts|]; [|reflexivity].
  cbn [option_map URI.octets]. now destruct (URI.octets ts).
Qed.

Lemma escapeSlashes_head (c : ascii) (x : string) :
  exists c' y, ReactRouter.escapeSlashes (String c x) = String c' y /\
               c' <> "/"%char.
Proof.
  simpl. destruct (Ascii.eqb_spec c "/") as [E|N].
  - eexists _, _. split; [reflexivity | discriminate].
  - eauto.
Qed.

Lemma decodeSegment_literal (c : ascii) (s : string) :
  c <> "%"%char -> c <> "/"%char ->
  ReactRouter.decodeSegment (String c s)
    = option_map (String c) (ReactRouter.decodeSegment s).
Proof.
  intros Hp Hs. unfold ReactRouter.decodeSegment.
  rewrite (decode_literal c s Hp).
  destruct (URI.decodeURIComponent s) as [x|]; [|reflexivity].
  simpl. apply Ascii.eqb_neq in Hs. now rewrite Hs.
Qed.

(** A decoded non-empty segment is non-empty and does not start with a
    slash. *)
Lemma decodeSegment_head (c : ascii) (s y : string) :
  ReactRouter.decodeSegment (String c s) = Some y ->
  exists c' y', y = String c' y' /\ c' <> "/"%char.
Proof.
  unfold ReactRouter.decodeSegment.
  destruct (URI.decodeURIComponent (String c s)) as [x|] eqn:E; [|discriminate].
  apply decode_nonempty in E. destruct x as [|a x]; [congruence|].
  destruct (escapeSlashes_head a x) as (c' & y' & Ey & Hc).
  cbn [option_map]. rewrite Ey. intros [= <-]. eauto.
Qed.

Lemma splitSlash_nonempty (s : string) :
  exists segment segments, ReactRouter.splitSlash s = segment :: segments.
Proof.
  destruct s as [|c s]; simpl; [eauto|].
  destruct (c =? "/")%char; [eauto|].
  destruct (ReactRouter.splitSlash s); eauto.
Qed.

Lemma mapThrowing_nonempty
  (f : string -> option string) (x : string) (xs l : list string) :
  ReactRouter.mapThrowing f (x :: xs) = Some l ->
  exists v vs, l = v :: vs /\ f x = Some v.
Proof.
  simpl. destruct (f x) as [v|]; [|discriminate].
  destruct (ReactRouter.mapThrowing f xs) as [vs|]; [|discriminate].
  intros [= <-]. eauto.
Qed.

(** Decoding keeps a leading slash. *)
Lemma decodePath_slash (s : string) :
  ReactRouter.decodePath (String "/" s) = String "/" (ReactRouter.decodePath s).
Proof.
  unfold ReactRouter.decodePath. cbn [ReactRouter.splitSlash Ascii.eqb Bool.eqb].
  cbn [ReactRouter.mapThrowing].
  change (ReactRouter.decodeSegment "") with (Some "").
  destruct (ReactRouter.mapThrowing ReactRouter.decodeSegment
              (ReactRouter.splitSlash s)) as [l|] eqn:El; [|reflexivity].
  destruct (splitSlash_nonempty s) as (seg & segs & E). rewrite E in El.
  destruct (mapThrowing_nonempty _ _ _ _ El) as (v & vs & -> & _). reflexivity.
Qed.

(** Decoding keeps a leading character that is neither a percent sign nor
    a slash. *)
Lemma decodePath_literal (c : ascii) (s : string) :
  c <> "%"%char -> c <> "/"%char ->
  ReactRouter.decodePath (String c s) = String c (ReactRouter.decodePath s).
Proof.
  intros Hp Hs. unfold ReactRouter.decodePath. cbn [ReactRouter.splitSlash].
  rewrite (proj2 (Ascii.eqb_neq c "/") Hs).
  destruct (splitSlash_nonempty s) as (seg & segs & E). rewrite E.
  cbn [ReactRouter.mapThrowing]. rewrite (decodeSegment_literal c seg Hp Hs).
  destruct (ReactRouter.decodeSegment seg) as [y|]; [|reflexivity].
  cbn [option_map].
  destruct (ReactRouter.mapThrowing ReactRouter.decodeSegment segs);
    reflexivity.
Qed.

(** What decoding yields for a path that does not start with a slash does
    not start with a slash either. *)
Lemma decodePath_head (c : ascii) (s : string) :
  c <> "/"%char ->
  exists c' x, ReactRouter.decodePath (String c s) = String c' x /\
               c' <> "/"%char.
Proof.
  intros Hs. unfold ReactRouter.decodePath. cbn [ReactRouter.splitSlash].
  rewrite (proj2 (Ascii.eqb_neq c "/") Hs).
  destruct (splitSlash_nonempty s) as (seg & segs & E). rewrite E.
  cbn [ReactRouter.mapThrowing].
  destruct (ReactRouter.decodeSegment (String c seg)) as [y|] eqn:Ey; [|eauto].
  destruct (decodeSegment_head _ _ _ Ey) as (c' & y' & -> & Hc).
  destruct (ReactRouter.mapThrowing ReactRouter.decodeSegment segs);
    [|eauto].
  simpl. eauto.
Qed.

Lemma decodePath_patient (rest : string) :
  ReactRouter.decodePath ("/patient" ++ rest)
    = "/patient" ++ ReactRouter.decodePath rest.
Proof.
  cbn [append]. rewrite decodePath_slash.
  now rewrite !decodePath_literal by discriminate.
Qed.

Lemma decodePath_provider (rest : string) :
  ReactRouter.decodePath ("/provider" ++ rest)
    = "/provider" ++ ReactRouter.decodePath rest.
Proof.
  cbn [append]. rewrite decodePath_slash.
  now rewrite !decodePath_literal by discriminate.
Qed.

(** Only a path of slashes decodes to a path of slashes. *)
Lemma decodePath_allSlashes (p : string) :
  ReactRouter.allSlashes (ReactRouter.decodePath p) = true ->
  ReactRouter.allSlashes p = true.
Proof.
  induction p as [|c p IH]; [reflexivity|].
  destruct (Ascii.eqb_spec c "/") as [-> | N].
  - rewrite decodePath_slash. exact IH.
  - destruct (decodePath_head c p N) as (c' & x & -> & Hc).
    intros H. apply allSlashes_cons in H. contradiction.
Qed.

Lemma hasLineTerminator_tail (c : ascii) (s : string) :
  ReactRouter.hasLineTerminator (String c s) = false ->
  ReactRouter.hasLineTerminator s = false.
Proof.
  cbn [ReactRouter.hasLineTerminator]. intros H.
  apply orb_false_iff in H. tauto.
Qed.

Lemma hasLineTerminator_suffix (a b : string) :
  ReactRouter.hasLineTerminator (a ++ b) = false ->
  ReactRouter.hasLineTerminator b = false.
Proof.
  induction a as [|c a IH]; [auto|].
  intros H. apply IH. exact (hasLineTerminator_tail c _ H).
Qed.

Lemma splatRest_slash (rest : string) :
  ReactRouter.hasLineTerminator rest = false ->
  ReactRouter.splatRest ("/" ++ rest) = true.
Proof.
  intros H. unfold ReactRouter.splatRest, ReactRouter.allSlashes. simpl.
  rewrite H. destruct rest as [|c rest]; [reflexivity | apply orb_true_r].
Qed.

Lemma matchPath_under_patient (p : string) :
  under "/patient" p ->
  ReactRouter.hasLineTerminator (ReactRouter.decodePath p) = false ->
  ReactRouter.matchPath "/patient/*" (ReactRouter.decodePath p) = true /\
  ReactRouter.matchPath "/" (ReactRouter.decodePath p) = false.
Proof.
  rewrite matchPath_patient, matchPath_root.
  intros [-> | [rest ->]]; [split; reflexivity|].
  rewrite decodePath_patient. change ("/" ++ rest) with (String "/" rest).
  rewrite decodePath_slash. intros H.
  apply (hasLineTerminator_suffix "/patient/" (ReactRouter.decodePath rest)) in H.
  rewrite matchLiteral_append.
  split; [exact (splatRest_slash _ H) | reflexivity].
Qed.

Lemma matchPath_under_provider (p : string) :
  under "/provider" p ->
  ReactRouter.hasLineTerminator (ReactRouter.decodePath p) = false ->
  ReactRouter.matchPath "/provider/*" (ReactRouter.decodePath p) = true /\
  ReactRouter.matchPath "/" (ReactRouter.decodePath p) = false /\
  ReactRouter.matchPath "/patient/*" (ReactRouter.decodePath p) = false.
Proof.
  rewrite matchPath_provider, matchPath_root, matchPath_patient.
  intros [-> | [rest ->]]; [repeat split; reflexivity|].
  rewrite decodePath_provider. change ("/" ++ rest) with (String "/" rest).
  rewrite decodePath_slash. intros H.
  apply (hasLineTerminator_suffix "/provider/" (ReactRouter.decodePath rest)) in H.
  rewrite matchLiteral_append.
  split; [exact (splatRest_slash _ H) | split; reflexivity].
Qed.

(** A slash cannot stand where a letter of a section name is expected. *)
Lemma root_excludes_section (p : string) (c : ascii) (name rest : string) :
  ReactRouter.foldCase c <> "/"%char ->
  ReactRouter.matchPath "/" p = true ->
  ReactRouter.matchLiteral (String "/" (String c name)) p = Some rest ->
  False.
Proof.
  intros Hc H1 E2. rewrite matchPath_root in H1.
  apply matchLiteral_cons in E2 as (d0 & p1 & -> & F0 & E2).
  apply matchLiteral_cons in E2 as (d1 & p2 & -> & F1 & _).
  simpl in H1. rewrite <- F0 in H1. simpl in H1.
  apply allSlashes_cons in H1. subst d1. now apply Hc.
Qed.

(** No pathname is matched by two routes of the table, so the order in
    which the routes are tried does not matter. *)
Lemma routes_exclusive (p : string) (r1 r2 : App.RouteObject) :
  In r1 App.routes -> In r2 App.routes ->
  ReactRouter.matchPath (App.path r1) p = true ->
  ReactRouter.matchPath (App.path r2) p = true ->
  r1 = r2.
Proof.
  assert (Hpat : ReactRouter.matchPath "/" p = true ->
                 ReactRouter.matchPath "/patient/*" p = true -> False).
  { intros H1 H2. rewrite matchPath_patient in H2.
    destruct (ReactRouter.matchLiteral "/patient" p) eqn:E; [|discriminate].
    refine (root_excludes_section p _ _ _ _ H1 E). vm_compute. discriminate. }
  assert (Hpro : ReactRouter.matchPath "/" p = true ->
                 ReactRouter.matchPath "/provider/*" p = true -> False).
  { intros H1 H2. rewrite matchPath_provider in H2.
    destruct (ReactRouter.matchLiteral "/provider" p) eqn:E; [|discriminate].
    refine (root_excludes_section p _ _ _ _ H1 E). vm_compute. discriminate. }
  assert (Hsect : ReactRouter.matchPath "/patient/*" p = true ->
                  ReactRouter.matchPath "/provider/*" p = true -> False).
  { intros H1 H2. rewrite matchPath_patient in H1.
    rewrite matchPath_provider in H2.
    destruct (ReactRouter.matchLiteral "/patient" p) as [r|] eqn:E1; [|discriminate].
    destruct (ReactRouter.matchLiteral "/provider" p) as [r'|] eqn:E2; [|discriminate].
    apply matchLiteral_cons in E1 as (d0 & p1 & -> & _ & E1).
    apply matchLiteral_cons in E1 as (d1 & p2 & -> & _ & E1).
    apply matchLiteral_cons in E1 as (d2 & p3 & -> & F1 & _).
    apply matchLiteral_cons in E2 as (? & ? & [= <- <-] & _ & E2).
    apply matchLiteral_cons in E2 as (? & ? & [= <- <-] & _ & E2).
    apply matchLiteral_cons in E2 as (? & ? & [= <- <-] & F2 & _).
    rewrite <- F2 in F1. vm_compute in F1. discriminate. }
  simpl. intros [<- | [<- | [<- | []]]] [<- | [<- | [<- | []]]];
    cbn [App.path]; intros H1 H2; try reflexivity; exfalso; auto.
Qed.

Lemma find_Some {A : Type} (pred : A -> bool) (arr : list A) (x : A) :
  find pred arr = Some x -> In x arr /\ pred x = true.
Proof.
  induction arr as [|y rest IH]; simpl; [discriminate|].
  destruct (pred y) eqn:E.
  - intros [= <-]. auto.
  - intros H. destruct (IH H). auto.
Qed.

Lemma matchRoutes_under_patient (p : string) :
  under "/patient" p ->
  ReactRouter.hasLineTerminator (ReactRouter.decodePath p) = false ->
  App.matchRoutes App.routes p
    = Some (App.mkRoute "/patient/*" (App.Display App.PatientPortalPage)).
Proof.
  intros Hu Hl. destruct (matchPath_under_patient p Hu Hl) as [H1 H0].
  unfold App.matchRoutes.
  replace (p =? "") with false by (destruct Hu as [-> | [rest ->]]; reflexivity).
  unfold App.routes. cbn [find App.path]. now rewrite H0, H1.
Qed.

Lemma matchRoutes_under_provider (p : string) :
  under "/provider" p ->
  ReactRouter.hasLineTerminator (ReactRouter.decodePath p) = false ->
  App.matchRoutes App.routes p
    = Some (App.mkRoute "/provider/*" (App.Display App.ProviderDashboardPage)).
Proof.
  intros Hu Hl. destruct (matchPath_under_provider p Hu Hl) as (H2 & H0 & H1).
  unfold App.matchRoutes.
  replace (p =? "") with false by (destruct Hu as [-> | [rest ->]]; reflexivity).
  unfold App.routes. cbn [find App.path]. now rewrite H0, H1, H2.
Qed.

(** Two renders always settle the router: the only redirect of the table
    leads to a path that shows a page. *)
Lemma settle_total (p : string) (fuel : nat) :
  exists view, App.settle (S (S fuel)) p = Some view.
Proof.
  cbn [App.settle].
  destruct (App.matchRoutes App.routes p) as [route|] eqn:E; [|eauto].
  apply find_Some in E as [Hin _].
  destruct Hin as [<- | [<- | [<- | []]]]; eexists; reflexivity.
Qed.

(** C5 (amended).  The route table sends every path under [/patient]
    whose decoded form holds no line terminator to the PatientPortal page,
    and every such path under [/provider] to the ProviderDashboard page;
    the root path [/] is redirected to [/patient], where PatientPortal is
    shown. *)
Theorem router_dispatch (p : string) (fuel : nat) :
  (under "/patient" p ->
   ReactRouter.hasLineTerminator (ReactRouter.decodePath p) = false ->
   App.settle (S fuel) p = Some (App.Shown p App.PatientPortalPage)) /\
  (under "/provider" p ->
   ReactRouter.hasLineTerminator (ReactRouter.decodePath p) = false ->
   App.settle (S fuel) p = Some (App.Shown p App.ProviderDashboardPage)) /\
  (p = "/" ->
   option_map App.element (App.matchRoutes App.routes p)
     = Some (App.Navigate "/patient" true) /\
   App.settle (S (S fuel)) p
     = Some (App.Shown "/patient" App.PatientPortalPage)).
Proof.
  split; [|split].
  - intros Hu Hl. cbn [App.settle].
    now rewrite (matchRoutes_under_patient p Hu Hl).
  - intros Hu Hl. cbn [App.settle].
    now rewrite (matchRoutes_under_provider p Hu Hl).
  - intros ->. split; reflexivity.
Qed.

Lemma router_dispatch_witness :
  App.settle 1 "/patient/bills/42"
    = Some (App.Shown "/patient/bills/42" App.PatientPortalPage) /\
  App.settle 1 "/provider"
    = Some (App.Shown "/provider" App.ProviderDashboardPage) /\
  App.settle 2 "/" = Some (App.Shown "/patient" App.PatientPortalPage).
Proof.
  split; [|split].
  - apply (router_dispatch "/patient/bills/42" 0).
    + right. exists "bills/42". reflexivity.
    + reflexivity.
  - apply (router_dispatch "/provider" 0).
    + left. reflexivity.
    + reflexivity.
  - apply (router_dispatch "/" 0). reflexivity.
Defined.

(** C5 (counterexample).  Not every path under [/patient] shows
    PatientPortal: [/patient/%0A] lies under [/patient], but its last
    segment decodes to a line feed, which the splat of [/patient/*] does
    not match; no route matches and no page is shown. *)
Lemma router_dispatch_counterexample :
  under "/patient" "/patient/%0A" /\
  App.matchRoutes App.routes "/patient/%0A" = None /\
  App.settle 2 "/patient/%0A" = Some (App.Blank "/patient/%0A") /\
  App.settle 2 "/patient/%0A"
    <> Some (App.Shown "/patient/%0A" App.PatientPortalPage).
Proof.
  split; [right; exists "%0A"; reflexivity|].
  split; [reflexivity|]. split; [reflexivity | discriminate].
Qed.

(** A section name glued to more characters is highlighted by the Layout
    but matched by no route. *)
Lemma glued_path_unrouted (section : string) (c : ascii) (more : string) :
  section = "/patient" \/ section = "/provider" ->
  c <> "/"%char ->
  startsWith (section ++ String c more) section = true /\
  App.matchRoutes App.routes (section ++ String c more) = None.
Proof.
  intros Hs Hc. split.
  - apply startsWith_spec. now exists (String c more).
  - destruct (decodePath_head c more Hc) as (c' & x & Ed & Hc').
    assert (Hrest : ReactRouter.splatRest (String c' x) = false).
    { unfold ReactRouter.splatRest, ReactRouter.allSlashes. simpl.
      apply Ascii.eqb_neq in Hc'. now rewrite Hc'. }
    unfold App.matchRoutes, App.routes.
    replace (section ++ String c more =? "") with false
      by (destruct Hs as [-> | ->]; reflexivity).
    cbn [find App.path].
    rewrite matchPath_root, matchPath_patient, matchPath_provider.
    destruct Hs as [-> | ->].
    + rewrite decodePath_patient, Ed.
      rewrite (matchLiteral_append "/patient"), Hrest. reflexivity.
    + rewrite decodePath_provider, Ed.
      rewrite (matchLiteral_append "/provider"), Hrest. reflexivity.
Qed.

(** C8. There is a path, [/patientfoo], whose first segment is not
    [patient], for which the Layout marks the Patient Portal link active
    by the raw prefix test although no route of the table matches it, so
    that no page is shown; likewise [/providerfoo] for the provider
    link. *)
Theorem highlight_without_route :
  (Layout.isPatient "/patientfoo" = true /\
   Layout.markedActive (Layout.linkClassName (Layout.isPatient "/patientfoo"))
     = true /\
   App.matchRoutes App.routes "/patientfoo" = None /\
   App.settle 2 "/patientfoo" = Some (App.Blank "/patientfoo")) /\
  (Layout.isProvider "/providerfoo" = true /\
   Layout.markedActive (Layout.linkClassName (Layout.isProvider "/providerfoo"))
     = true /\
   App.matchRoutes App.routes "/providerfoo" = None /\
   App.settle 2 "/providerfoo" = Some (App.Blank "/providerfoo")).
Proof. split; (split; [|split; [|split]]); reflexivity. Qed.

(** * Further properties of the pages *)

(** ** The tab bar follows the state *)

Lemma patient_button_highlight (tab : Tab) (activeTab : string) :
  TabBar.isHighlighted
    (TabBar.mkButton (id tab) (PatientPortal.buttonClassName tab activeTab)
                     (label tab))
  = (activeTab =? id tab).
Proof.
  unfold TabBar.isHighlighted, PatientPortal.buttonClassName. simpl.
  now destruct (activeTab =? id tab).
Qed.

Lemma provider_button_highlight (tab : Tab) (activeTab : string) :
  TabBar.isHighlighted
    (TabBar.mkButton (id tab) (ProviderDashboard.buttonClassName tab activeTab)
                     (label tab))
  = (activeTab =? id tab).
Proof.
  unfold TabBar.isHighlighted, ProviderDashboard.buttonClassName. simpl.
  now destruct (activeTab =? id tab).
Qed.

Section HighlightedButtons.

Variable draw : Tab -> TabBar.Button.
Variable activeTab : string.
Hypothesis draw_highlight :
  forall tab, TabBar.isHighlighted (draw tab) = (activeTab =? id tab).

Lemma none_highlighted (arr : list Tab) :
  ~ In activeTab (ids arr) ->
  filter TabBar.isHighlighted (map draw arr) = [].
Proof.
  induction arr as [|x rest IH]; simpl; [reflexivity|].
  intros H. rewrite draw_highlight.
  destruct (String.eqb_spec activeTab (id x)) as [E|_].
  - exfalso. apply H. now left.
  - apply IH. intros Hin. apply H. now right.
Qed.

Lemma one_highlighted (arr : list Tab) (t : Tab) :
  NoDup (ids arr) -> In t arr -> id t = activeTab ->
  filter TabBar.isHighlighted (map draw arr) = [draw t].
Proof.
  induction arr as [|x rest IH]; simpl; [intros _ []|].
  intros Hnd Hin Hid. apply NoDup_cons_iff in Hnd as [Hx Hrest].
  rewrite draw_highlight. destruct Hin as [E | Hin].
  - rewrite E, Hid, String.eqb_refl. f_equal.
    apply none_highlighted. now rewrite <- Hid, <- E.
  - destruct (String.eqb_spec activeTab (id x)) as [E|_].
    + exfalso. apply Hx. rewrite <- E, <- Hid. now apply in_map.
    + now apply IH.
Qed.

End HighlightedButtons.

Lemma patient_view_of_listed (t : Tab) :
  In t PatientPortal.tabs ->
  TabBar.highlighted (PatientPortal_render (id t))
    = [TabBar.mkButton (id t) TabBar.activeClassName (label t)] /\
  TabBar.body (PatientPortal_render (id t)) = component t.
Proof.
  intros Hin. split.
  - unfold TabBar.highlighted, PatientPortal_render. cbn [TabBar.nav].
    rewrite (one_highlighted _ (id t)
               (fun tab => patient_button_highlight tab (id t))
               PatientPortal.tabs t patient_ids_NoDup Hin eq_refl).
    unfold PatientPortal.buttonClassName. now rewrite String.eqb_refl.
  - cbn [TabBar.body PatientPortal_render].
    unfold PatientPortal.ActiveComponent.
    now rewrite (find_id_Some _ t patient_ids_NoDup Hin).
Qed.

Lemma provider_view_of_listed (t : Tab) :
  In t ProviderDashboard.tabs ->
  TabBar.highlighted (ProviderDashboard_render (id t))
    = [TabBar.mkButton (id t) TabBar.activeClassName (label t)] /\
  TabBar.body (ProviderDashboard_render (id t)) = component t.
Proof.
  intros Hin. split.
  - unfold TabBar.highlighted, ProviderDashboard_render. cbn [TabBar.nav].
    rewrite (one_highlighted _ (id t)
               (fun tab => provider_button_highlight tab (id t))
               ProviderDashboard.tabs t provider_ids_NoDup Hin eq_refl).
    unfold ProviderDashboard.buttonClassName. now rewrite String.eqb_refl.
  - cbn [TabBar.body ProviderDashboard_render].
    unfold ProviderDashboard.ActiveComponent.
    now rewrite (find_id_Some _ t provider_ids_NoDup Hin).
Qed.

Lemma listed_id_has_tab (arr : list Tab) (s : string) :
  In s (ids arr) -> exists t, In t arr /\ id t = s.
Proof.
  unfold ids. rewrite in_map_iff. intros (t & E & Hin). eauto.
Qed.

(** X1. After mounting and any sequence of clicks, each page draws exactly
    one tab button highlighted, and that button is the one of the tab
    whose component the page renders below the bar. *)
Theorem one_tab_highlighted_and_shown (clicks : list nat) :
  (exists t, In t PatientPortal.tabs /\
     id t = PatientPortal.run clicks /\
     TabBar.highlighted (PatientPortal_render (PatientPortal.run clicks))
       = [TabBar.mkButton (id t) TabBar.activeClassName (label t)] /\
     TabBar.body (PatientPortal_render (PatientPortal.run clicks))
       = component t) /\
  (exists t, In t ProviderDashboard.tabs /\
     id t = ProviderDashboard.run clicks /\
     TabBar.highlighted (ProviderDashboard_render (ProviderDashboard.run clicks))
       = [TabBar.mkButton (id t) TabBar.activeClassName (label t)] /\
     TabBar.body (ProviderDashboard_render (ProviderDashboard.run clicks))
       = component t).
Proof.
  split.
  - assert (Hin : In (PatientPortal.run clicks) (ids PatientPortal.tabs)).
    { apply (fold_left_invariant _ (fun s => In s (ids PatientPortal.tabs))).
      - intros s i. apply patient_click_keeps_listed.
      - simpl. auto. }
    destruct (listed_id_has_tab _ _ Hin) as (t & Ht & E).
    exists t. rewrite <- E. repeat split; auto; now apply patient_view_of_listed.
  - assert (Hin : In (ProviderDashboard.run clicks) (ids ProviderDashboard.tabs)).
    { apply (fold_left_invariant _ (fun s => In s (ids ProviderDashboard.tabs))).
      - intros s i. apply provider_click_keeps_listed.
      - simpl. auto. }
    destruct (listed_id_has_tab _ _ Hin) as (t & Ht & E).
    exists t. rewrite <- E. repeat split; auto; now apply provider_view_of_listed.
Qed.

(** X2. In a state outside the page's tab identifiers the page still
    renders its default component, but draws no tab button highlighted. *)
Theorem unlisted_state_highlights_nothing (s : string) :
  (~ In s (ids PatientPortal.tabs) ->
   TabBar.highlighted (PatientPortal_render s) = [] /\
   TabBar.body (PatientPortal_render s) = CostEstimator) /\
  (~ In s (ids ProviderDashboard.tabs) ->
   TabBar.highlighted (ProviderDashboard_render s) = [] /\
   TabBar.body (ProviderDashboard_render s) = DenialRiskScorer).
Proof.
  split; intros H; split.
  - apply (none_highlighted _ s (fun tab => patient_button_highlight tab s) _ H).
  - cbn [TabBar.body PatientPortal_render].
    unfold PatientPortal.ActiveComponent. now rewrite find_id_None.
  - apply (none_highlighted _ s (fun tab => provider_button_highlight tab s) _ H).
  - cbn [TabBar.body ProviderDashboard_render].
    unfold ProviderDashboard.ActiveComponent. now rewrite find_id_None.
Qed.

Lemma unlisted_state_highlights_nothing_witness :
  (TabBar.highlighted (PatientPortal_render "Estimate") = [] /\
   TabBar.body (PatientPortal_render "Estimate") = CostEstimator) /\
  (TabBar.highlighted (ProviderDashboard_render "bill") = [] /\
   TabBar.body (ProviderDashboard_render "bill") = DenialRiskScorer).
Proof.
  split.
  - apply (unlisted_state_highlights_nothing "Estimate").
    simpl. intuition discriminate.
  - apply (unlisted_state_highlights_nothing "bill").
    simpl. intuition discriminate.
Defined.

(** ** Clicks and what they bring up *)

Lemma patient_click_listed (i : nat) (t : Tab) (s : string) :
  nth_error PatientPortal.tabs i = Some t -> PatientPortal.click i s = id t.
Proof.
  intros Hi. unfold PatientPortal.click, PatientPortal.buttons.
  now rewrite (map_nth_error PatientPortal.onClick i _ Hi).
Qed.

Lemma provider_click_listed (i : nat) (t : Tab) (s : string) :
  nth_error ProviderDashboard.tabs i = Some t ->
  ProviderDashboard.click i s = id t.
Proof.
  intros Hi. unfold ProviderDashboard.click, ProviderDashboard.buttons.
  now rewrite (map_nth_error ProviderDashboard.onClick i _ Hi).
Qed.

(** X3. Clicking the button of tab [t] in any state makes the page render
    the component of [t] and highlight the button of [t] alone. *)
Theorem click_brings_up_tab (i : nat) (t : Tab) (s : string) :
  (nth_error PatientPortal.tabs i = Some t ->
   TabBar.body (PatientPortal_render (PatientPortal.click i s)) = component t /\
   TabBar.highlighted (PatientPortal_render (PatientPortal.click i s))
     = [TabBar.mkButton (id t) TabBar.activeClassName (label t)]) /\
  (nth_error ProviderDashboard.tabs i = Some t ->
   TabBar.body (ProviderDashboard_render (ProviderDashboard.click i s))
     = component t /\
   TabBar.highlighted (ProviderDashboard_render (ProviderDashboard.click i s))
     = [TabBar.mkButton (id t) TabBar.activeClassName (label t)]).
Proof.
  split; intros Hi.
  - rewrite (patient_click_listed i t s Hi).
    destruct (patient_view_of_listed t (nth_error_In _ _ Hi)). auto.
  - rewrite (provider_click_listed i t s Hi).
    destruct (provider_view_of_listed t (nth_error_In _ _ Hi)). auto.
Qed.

Lemma click_brings_up_tab_witness :
  (TabBar.body (PatientPortal_render (PatientPortal.click 3 "bill"))
     = RiskDashboard /\
   TabBar.highlighted (PatientPortal_render (PatientPortal.click 3 "bill"))
     = [TabBar.mkButton "risk" TabBar.activeClassName "Risk Dashboard"]) /\
  (TabBar.body (ProviderDashboard_render (ProviderDashboard.click 2 "nowhere"))
     = RevenueAnalytics /\
   TabBar.highlighted (ProviderDashboard_render (ProviderDashboard.click 2 "nowhere"))
     = [TabBar.mkButton "analytics" TabBar.activeClassName "Revenue Analytics"]).
Proof.
  split.
  - apply (click_brings_up_tab 3 (mkTab "risk" "Risk Dashboard" RiskDashboard)
             "bill"). reflexivity.
  - apply (click_brings_up_tab 2
             (mkTab "analytics" "Revenue Analytics" RevenueAnalytics)
             "nowhere"). reflexivity.
Defined.

(** X4. The state keeps no history: after any sequence of clicks that ends
    with a click on the button of tab [t], [activeTab] is the identifier
    of [t], whatever was clicked before. *)
Theorem last_click_wins (clicks : list nat) (i : nat) (t : Tab) :
  (nth_error PatientPortal.tabs i = Some t ->
   PatientPortal.run (clicks ++ [i]) = id t) /\
  (nth_error ProviderDashboard.tabs i = Some t ->
   ProviderDashboard.run (clicks ++ [i]) = id t).
Proof.
  split; intros Hi.
  - unfold PatientPortal.run. rewrite fold_left_app. simpl.
    now apply patient_click_listed.
  - unfold ProviderDashboard.run. rewrite fold_left_app. simpl.
    now apply provider_click_listed.
Qed.

Lemma last_click_wins_witness :
  PatientPortal.run ([3; 0; 7; 2] ++ [1]) = "bill" /\
  ProviderDashboard.run ([1; 1; 0] ++ [3]) = "coding".
Proof.
  split.
  - apply (last_click_wins [3; 0; 7; 2] 1 (mkTab "bill" "Bill Analysis" BillAnalysis)).
    reflexivity.
  - apply (last_click_wins [1; 1; 0] 3
             (mkTab "coding" "Coding Recommendations" CodingRecommendations)).
    reflexivity.
Defined.

(** X5. Whatever string [activeTab] holds, a page renders one of the
    components of its own [tabs], never a component of the other page. *)
Theorem page_renders_own_component (s : string) :
  (In (PatientPortal.ActiveComponent s) (map component PatientPortal.tabs) /\
   ~ In (PatientPortal.ActiveComponent s) (map component ProviderDashboard.tabs)) /\
  (In (ProviderDashboard.ActiveComponent s) (map component ProviderDashboard.tabs) /\
   ~ In (ProviderDashboard.ActiveComponent s) (map component PatientPortal.tabs)).
Proof.
  assert (Hpat : forall c, In c (map component PatientPortal.tabs) ->
                 ~ In c (map component ProviderDashboard.tabs)).
  { simpl. intros c H. intuition congruence. }
  assert (Hpro : forall c, In c (map component ProviderDashboard.tabs) ->
                 ~ In c (map component PatientPortal.tabs)).
  { simpl. intros c H. intuition congruence. }
  assert (H1 : In (PatientPortal.ActiveComponent s)
                  (map component PatientPortal.tabs)).
  { unfold PatientPortal.ActiveComponent.
    destruct (find (fun t => id t =? s) PatientPortal.tabs) as [t|] eqn:E.
    - apply find_id_inv in E as [Hin _]. rewrite js_or_found.
      now apply in_map.
    - simpl. auto. }
  assert (H2 : In (ProviderDashboard.ActiveComponent s)
                  (map component ProviderDashboard.tabs)).
  { unfold ProviderDashboard.ActiveComponent.
    destruct (find (fun t => id t =? s) ProviderDashboard.tabs) as [t|] eqn:E.
    - apply find_id_inv in E as [Hin _]. rewrite js_or_found.
      now apply in_map.
    - simpl. auto. }
  auto.
Qed.

(** X6. Every tab of a page can be brought up by one click from any state:
    for each tab there is a button whose click makes the page render that
    tab's component. *)
Theorem every_tab_reachable (t : Tab) :
  (In t PatientPortal.tabs ->
   exists i, forall s,
     PatientPortal.ActiveComponent (PatientPortal.click i s) = component t) /\
  (In t ProviderDashboard.tabs ->
   exists i, forall s,
     ProviderDashboard.ActiveComponent (ProviderDashboard.click i s)
       = component t).
Proof.
  split; intros Hin; destruct (In_nth_error _ _ Hin) as [i Hi]; exists i;
    intros s.
  - rewrite (patient_click_listed i t s Hi).
    unfold PatientPortal.ActiveComponent.
    now rewrite (find_id_Some _ t patient_ids_NoDup Hin).
  - rewrite (provider_click_listed i t s Hi).
    unfold ProviderDashboard.ActiveComponent.
    now rewrite (find_id_Some _ t provider_ids_NoDup Hin).
Qed.

Lemma every_tab_reachable_witness :
  (exists i, forall s,
     PatientPortal.ActiveComponent (PatientPortal.click i s) = AssistanceFinder) /\
  (exists i, forall s,
     ProviderDashboard.ActiveComponent (ProviderDashboard.click i s) = ClaimQA).
Proof.
  split.
  - apply (every_tab_reachable
             (mkTab "assistance" "Find Assistance" AssistanceFinder)).
    simpl. auto.
  - apply (every_tab_reachable (mkTab "qa" "Claim QA" ClaimQA)).
    simpl. auto.
Defined.

(** * Further properties of the router and the navigation bar *)

Lemma foldCase_slash (d : ascii) :
  ReactRouter.foldCase "/" = ReactRouter.foldCase d -> d = "/"%char.
Proof.
  destruct d as [[] [] [] [] [] [] [] []]; vm_compute; intros H;
    first [reflexivity | discriminate H].
Qed.

(** The root pattern matches nothing but slashes. *)
Lemma matchPath_root_slashes (p : string) :
  ReactRouter.matchPath "/" p = true -> ReactRouter.allSlashes p = true.
Proof.
  rewrite matchPath_root.
  destruct (ReactRouter.matchLiteral "/" p) as [rest|] eqn:E; [|discriminate].
  apply matchLiteral_cons in E as (d & p' & -> & F & E).
  simpl in E. injection E as <-. apply foldCase_slash in F. subst d.
  intros H. exact H.
Qed.

Lemma matched_route (p : string) (route : App.RouteObject) :
  App.matchRoutes App.routes p = Some route ->
  In route App.routes /\
  ReactRouter.matchPath (App.path route)
    (ReactRouter.decodePath (if p =? "" then "/" else p)) = true.
Proof.
  unfold App.matchRoutes. intros H.
  apply (find_Some
           (fun r => ReactRouter.matchPath (App.path r)
                       (ReactRouter.decodePath (if p =? "" then "/" else p))))
    in H.
  exact H.
Qed.

(** X8. Rendering the routes always settles within two renders, and more
    renders change nothing: either no route matches and nothing is drawn,
    or a page is shown at the requested path, or the path consists of
    slashes only and the redirect ends on PatientPortal at [/patient]. *)
Theorem settle_in_two_renders (p : string) (fuel : nat) :
  App.settle (S (S fuel)) p = App.settle 2 p /\
  (App.settle 2 p = Some (App.Blank p) \/
   (exists page, App.settle 2 p = Some (App.Shown p page)) \/
   (ReactRouter.allSlashes p = true /\
    App.settle 2 p = Some (App.Shown "/patient" App.PatientPortalPage))).
Proof.
  cbn [App.settle].
  destruct (App.matchRoutes App.routes p) as [route|] eqn:E; [|auto].
  destruct (matched_route p route E) as [Hin Hm].
  destruct Hin as [<- | [<- | [<- | []]]]; cbn [App.element App.path] in *.
  - split; [reflexivity|]. right. right. split; [|reflexivity].
    destruct p as [|c p]; [reflexivity|].
    now apply decodePath_allSlashes, matchPath_root_slashes.
  - split; [reflexivity|]. right. left. eauto.
  - split; [reflexivity|]. right. left. eauto.
Qed.

Lemma settled_route (fuel : nat) (p q : string) (page : App.Page) :
  App.settle fuel p = Some (App.Shown q page) ->
  exists route,
    App.matchRoutes App.routes q = Some route /\
    App.element route = App.Display page.
Proof.
  revert p. induction fuel as [|fuel IH]; intros p; simpl; [discriminate|].
  destruct (App.matchRoutes App.routes p) as [route|] eqn:E; [|discriminate].
  destruct (App.element route) as [target replace|page'] eqn:El.
  - apply IH.
  - intros [= <- <-]. eauto.
Qed.

(** X9. The highlighted link never names another page than the one shown:
    whenever the router has settled on a page at a path, a highlighted
    Patient Portal link means the page is PatientPortal and a highlighted
    Provider Dashboard link means it is ProviderDashboard. *)
Theorem highlight_agrees_with_page
  (fuel : nat) (p q : string) (page : App.Page) :
  App.settle fuel p = Some (App.Shown q page) ->
  (Layout.isPatient q = true -> page = App.PatientPortalPage) /\
  (Layout.isProvider q = true -> page = App.ProviderDashboardPage).
Proof.
  intros H. destruct (settled_route fuel p q page H) as (route & E & El).
  destruct (matched_route q route E) as [Hin Hm].
  split; intros Hl; apply startsWith_spec in Hl as [rest ->];
    cbn [append String.eqb] in Hm;
    rewrite decodePath_slash, !decodePath_literal in Hm by discriminate;
    generalize dependent (ReactRouter.decodePath rest); intros d Hm;
    destruct Hin as [<- | [<- | [<- | []]]];
    cbn [App.element App.path] in *;
    first [ discriminate El
          | injection El as <-; reflexivity
          | exfalso; vm_compute in Hm; discriminate Hm ].
Qed.

Lemma highlight_agrees_with_page_witness :
  (Layout.isPatient "/patient" = true -> App.PatientPortalPage = App.PatientPortalPage) /\
  (Layout.isProvider "/patient" = true ->
   App.PatientPortalPage = App.ProviderDashboardPage).
Proof.
  apply (highlight_agrees_with_page 2 "/" "/patient" App.PatientPortalPage).
  reflexivity.
Defined.

(** X7. At most one route of the table matches any given pathname, so
    the order in which react-router tries the routes cannot change the
    element it picks. *)
Theorem at_most_one_route_matches (p : string) :
  length (filter (fun route => ReactRouter.matchPath (App.path route) p)
                 App.routes) <= 1.
Proof.
  pose proof (routes_exclusive p) as Hex. unfold App.routes in *.
  cbn [filter App.path].
  destruct (ReactRouter.matchPath "/" p) eqn:E0,
           (ReactRouter.matchPath "/patient/*" p) eqn:E1,
           (ReactRouter.matchPath "/provider/*" p) eqn:E2;
    cbn [length]; try lia; exfalso.
  - specialize (Hex (App.mkRoute "/" (App.Navigate "/patient" true))
                    (App.mkRoute "/patient/*" (App.Display App.PatientPortalPage))).
    simpl in Hex. discriminate Hex; auto.
  - specialize (Hex (App.mkRoute "/" (App.Navigate "/patient" true))
                    (App.mkRoute "/patient/*" (App.Display App.PatientPortalPage))).
    simpl in Hex. discriminate Hex; auto.
  - specialize (Hex (App.mkRoute "/" (App.Navigate "/patient" true))
                    (App.mkRoute "/provider/*" (App.Display App.ProviderDashboardPage))).
    simpl in Hex. discriminate Hex; auto.
  - specialize (Hex (App.mkRoute "/patient/*" (App.Display App.PatientPortalPage))
                    (App.mkRoute "/provider/*" (App.Display App.ProviderDashboardPage))).
    simpl in Hex. discriminate Hex; auto.
Qed.

Lemma under_prefixMatches (section p : string) :
  under section p -> prefixMatches section p.
Proof.
  intros [-> | [rest ->]].
  - exists "". induction section as [|c section IH]; simpl; [reflexivity|].
    now rewrite <- IH.
  - now exists ("/" ++ rest).
Qed.

(** X10. Each link of the navigation bar agrees with the route table on
    its own section: at every path under a link's target whose decoded
    form holds no line terminator the router shows a page at that path,
    that link is highlighted, and it is the only highlighted link. *)
Theorem link_agrees_with_routes
  (link : NavLinks.NavLink) (p : string) (fuel : nat) :
  In link NavLinks.links ->
  under (NavLinks.to link) p ->
  ReactRouter.hasLineTerminator (ReactRouter.decodePath p) = false ->
  (exists page, App.settle (S fuel) p = Some (App.Shown p page)) /\
  NavLinks.active link p = true /\
  (forall other, In other NavLinks.links ->
                 NavLinks.active other p = true -> other = link).
Proof.
  intros Hin Hu Hl. pose proof (under_prefixMatches _ _ Hu) as Hp.
  destruct Hin as [<- | [<- | []]]; cbn [NavLinks.to NavLinks.active] in *.
  - split; [|split].
    + exists App.PatientPortalPage. cbn [App.settle].
      now rewrite (matchRoutes_under_patient p Hu Hl).
    + now apply startsWith_spec.
    + intros other [<- | [<- | []]]; [reflexivity|].
      cbn [NavLinks.active]. intros Ho. apply startsWith_spec in Ho.
      destruct (sections_disjoint p Hp Ho).
  - split; [|split].
    + exists App.ProviderDashboardPage. cbn [App.settle].
      now rewrite (matchRoutes_under_provider p Hu Hl).
    + now apply startsWith_spec.
    + intros other [<- | [<- | []]]; [|reflexivity].
      cbn [NavLinks.active]. intros Ho. apply startsWith_spec in Ho.
      destruct (sections_disjoint p Ho Hp).
Qed.

Lemma link_agrees_with_routes_witness :
  (exists page, App.settle 1 "/provider/claims"
                  = Some (App.Shown "/provider/claims" page)) /\
  Layout.isProvider "/provider/claims" = true /\
  (forall other, In other NavLinks.links ->
     NavLinks.active other "/provider/claims" = true ->
     other = NavLinks.mkNavLink "/provider" "Provider Dashboard" Layout.isProvider).
Proof.
  apply (link_agrees_with_routes
           (NavLinks.mkNavLink "/provider" "Provider Dashboard" Layout.isProvider)
           "/provider/claims" 0).
  - simpl. auto.
  - right. exists "claims". reflexivity.
  - reflexivity.
Defined.

Lemma append_assoc (a b c : string) : (a ++ b) ++ c = a ++ (b ++ c).
Proof. induction a as [|x a IH]; simpl; [reflexivity | now rewrite IH]. Qed.

(** X11. A highlighted link stays highlighted on every longer path:
    whatever is appended to a path that highlights a link, the link is
    still highlighted. *)
Theorem highlight_survives_longer_paths (p suffix : string) :
  (Layout.isPatient p = true -> Layout.isPatient (p ++ suffix) = true) /\
  (Layout.isProvider p = true -> Layout.isProvider (p ++ suffix) = true).
Proof.
  unfold Layout.isPatient, Layout.isProvider.
  split; intros H; apply startsWith_spec in H as [rest ->];
    apply startsWith_spec; exists (rest ++ suffix); apply append_assoc.
Qed.

Lemma highlight_survives_longer_paths_witness :
  Layout.isPatient ("/patient" ++ "s/archive") = true /\
  Layout.isProvider ("/provider/claims" ++ "/7") = true.
Proof.
  split.
  - apply (highlight_survives_longer_paths "/patient" "s/archive"). reflexivity.
  - apply (highlight_survives_longer_paths "/provider/claims" "/7"). reflexivity.
Defined.

(** X12. On every path made of a section name directly followed by a
    character other than a slash, the Layout highlights the section's link
    although no route matches, so the page area stays empty. *)
Theorem glued_section_highlighted_but_blank
  (section : string) (c : ascii) (more : string) (fuel : nat) :
  section = "/patient" \/ section = "/provider" ->
  c <> "/"%char ->
  startsWith (section ++ String c more) section = true /\
  App.settle (S fuel) (section ++ String c more)
    = Some (App.Blank (section ++ String c more)).
Proof.
  intros Hs Hc. destruct (glued_path_unrouted section c more Hs Hc) as [H1 H2].
  split; [exact H1|]. cbn [App.settle]. now rewrite H2.
Qed.

Lemma glued_section_highlighted_but_blank_witness :
  startsWith ("/provider" ++ String "s" "/list") "/provider" = true /\
  App.settle 1 ("/provider" ++ String "s" "/list")
    = Some (App.Blank ("/provider" ++ String "s" "/list")).
Proof.
  apply (glued_section_highlighted_but_blank "/provider" "s" "/list" 0).
  - right. reflexivity.
  - discriminate.
Defined.
